(** * profiles-demo: the Kernel app [profile-auth-and-task-execution]

    A shallow embedding of the four actions registered in [src/index.ts]
    ([create-profile-browser], [end-session-and-save-profile],
    [execute-task-with-profile], [get-payload-schemas]) and the properties
    of their control flow.

    The two vendor clients ([@onkernel/sdk] and [magnitude-core]) and the
    process environment are an oracle [Env]: every external call is answered
    as a function of the whole history of the invocation so far, so that an
    arbitrary (stateful) collaborator is covered by quantifying over [Env].
    An action is a computation in a small monad that threads the history
    (external calls, their answers, console output) and the action's mutable
    local variables, and that ends in a JavaScript completion: normal,
    [return] or [throw]. *)

From Stdlib Require Import String Ascii List ZArith Bool Lia DecimalString.
Import ListNotations.
Local Open Scope string_scope.
Local Open Scope list_scope.

Set Implicit Arguments.
#[local] Set Warnings "-register-all".

(** ** Values *)

(** What the code can observe of a thrown value: [instanceof ConflictError],
    [instanceof Error], [.message] and [String(_)].  The string conversion of
    a value that is not an Error runs the value's own conversion, which may
    throw in turn (a TypeError for an object that has none). *)
Inductive Thrown : Type :=
| ConflictError (message : string)   (* the SDK's ConflictError, an Error subclass *)
| Error (message : string)           (* any other instance of Error *)
| NonError (str : string)            (* any other thrown value, by its String(_) *)
| Unconvertible (thrown : Thrown).   (* any other thrown value whose String(_) throws *)

(** [any]: results of [agent.act] and [agent.extract]. *)
Inductive JsValue : Type :=
| JUndefined
| JNull
| JBool (b : bool)
| JNum (z : Z)
| JStr (s : string)
| JObj (fields : list (string * JsValue)).

(** A promise that has settled (or a synchronous call that has completed). *)
Inductive Outcome (A : Type) : Type :=
| Resolved (a : A)
| Rejected (e : Thrown).
Arguments Rejected {A} e.

(** JavaScript truthiness of a value that is a string or [undefined]. *)
Definition truthy (s : option string) : bool :=
  match s with
  | Some EmptyString => false
  | Some _ => true
  | None => false
  end.

(** [a || ""] on such a value. *)
Definition or_empty (s : option string) : string :=
  if truthy s then match s with Some v => v | None => "" end else "".

(** Template-literal conversion of an integral number. *)
Definition number_toString (z : Z) : string :=
  NilZero.string_of_int (Z.to_int z).

(** ** The interfaces of [src/index.ts] and of the two SDKs *)

Module KernelContext.
Record t : Type := { invocation_id : string }.
End KernelContext.

(** The object resolved by [kernel.profiles.create]; it is only logged. *)
Module Profile.
Record t : Type := { id : string; name : option string }.
End Profile.

(** The argument of [kernel.browsers.create]. *)
Module BrowserCreateParams.
Record t : Type := {
  invocation_id : string;
  profile_name : option string;
  profile_save_changes : bool;
  stealth : bool
}.
End BrowserCreateParams.

(** The object resolved by [kernel.browsers.create]. *)
Module KernelBrowser.
Record t : Type := {
  session_id : option string;
  cdp_ws_url : option string;
  browser_live_view_url : option string
}.
End KernelBrowser.

(** The argument of [startBrowserAgent]. *)
Module AgentOptions.
Record t : Type := {
  url : string;
  narrate : bool;
  llm_provider : string;
  llm_model : string;
  llm_apiKey : option string;
  virtualScreenDimensions : Z * Z;
  browser_cdp : option string;
  viewport : Z * Z
}.
End AgentOptions.

(** The handle resolved by [startBrowserAgent]; an object, hence truthy. *)
Inductive Agent : Type := AgentHandle (n : nat).

(** The zod schemas the code builds. *)
Inductive Zod : Type :=
| z_any
| z_record (value : Zod)
| z_object (shape : list (string * Zod)).

Module CreateProfileBrowserOutput.
Record t : Type := {
  browser_live_view_url : string;
  profile_name : string;
  session_id : string
}.
End CreateProfileBrowserOutput.

Module EndSessionAndSaveProfilePayload.
Record t : Type := { session_id : option string }.
End EndSessionAndSaveProfilePayload.

Module EndSessionAndSaveProfileOutput.
Record t : Type := { success : bool }.
End EndSessionAndSaveProfileOutput.

(** The two fields declared as required are [option]s as well: the payload is
    whatever JSON the caller sent. *)
Module ExecuteTaskWithProfilePayload.
Record t : Type := {
  profile_name : option string;
  task : option string;
  url : option string;
  extract_instructions : option string
}.
End ExecuteTaskWithProfilePayload.

(** [None] is a field that is absent or [undefined]. *)
Module ExecuteTaskWithProfileOutput.
Record t : Type := {
  success : bool;
  task_result : option JsValue;
  extracted_data : option JsValue;
  error : option string;
  session_id : option string
}.
End ExecuteTaskWithProfileOutput.

Module PayloadField.
Record t : Type := {
  type : string;
  required : bool;
  description : string
}.
End PayloadField.

Module ActionSchema.
Record t : Type := {
  description : string;
  payload : option (list (string * PayloadField.t))
}.
End ActionSchema.

(** An object literal, in the order its keys are written. *)
Definition GetPayloadSchemasOutput : Type := list (string * ActionSchema.t).

(** ** History of an invocation *)

(** The second argument of a [console.log] / [console.error] call. *)
Inductive LogArg : Type :=
| LProfile (p : Profile.t)
| LBrowser (b : KernelBrowser.t)
| LString (s : option string)
| LThrown (e : Thrown).

Inductive Event : Type :=
| profiles_create (name : string) (o : Outcome Profile.t)
| browsers_create (params : BrowserCreateParams.t) (o : Outcome KernelBrowser.t)
| browsers_deleteByID (id : option string) (o : Outcome unit)
| startBrowserAgent (options : AgentOptions.t) (o : Outcome Agent)
| agent_act (a : Agent) (task : option string) (o : Outcome JsValue)
| agent_extract (a : Agent) (instructions : option string) (schema : Zod)
    (o : Outcome JsValue)
| agent_stop (a : Agent) (o : Outcome (Outcome unit))
| console_log (text : string) (arg : option LogArg)
| console_error (text : string) (arg : option LogArg).

Definition Trace : Type := list Event.

(** ** The collaborators *)

(** Every answer may depend on everything that happened before in the
    invocation.  [Math_random_toString36] is [Math.random().toString(36)].
    An awaited call is answered by the settlement of its promise.
    [agent.stop()] is not awaited: its answer is whether the call itself
    threw or returned, and in the latter case how the promise it returned
    settles later, which the action never observes. *)
Record Env : Type := {
  ANTHROPIC_API_KEY : option string;
  Date_now : Z;
  Math_random_toString36 : string;
  kernel_profiles_create : Trace -> string -> Outcome Profile.t;
  kernel_browsers_create : Trace -> BrowserCreateParams.t -> Outcome KernelBrowser.t;
  kernel_browsers_deleteByID : Trace -> option string -> Outcome unit;
  magnitude_startBrowserAgent : Trace -> AgentOptions.t -> Outcome Agent;
  magnitude_act : Trace -> Agent -> option string -> Outcome JsValue;
  magnitude_extract : Trace -> Agent -> option string -> Zod -> Outcome JsValue;
  magnitude_stop : Trace -> Agent -> Outcome (Outcome unit)
}.

(** ** Completions and the monad of an action body *)

Inductive Completion (R A : Type) : Type :=
| Normal (a : A)
| Return (r : R)
| Throw (e : Thrown).
Arguments Normal {R A} a.
Arguments Return {R A} r.
Arguments Throw {R A} e.

Record State (L : Type) : Type := { locals : L; trace : Trace }.

(** [L]: the mutable locals of the body; [R]: what the action returns. *)
Definition M (L R A : Type) : Type := State L -> Completion R A * State L.

Section Monad.
Context {L R : Type}.

Definition ret {A} (a : A) : M L R A := fun s => (Normal a, s).

Definition bind {A B} (m : M L R A) (k : A -> M L R B) : M L R B :=
  fun s =>
    match m s with
    | (Normal a, s') => k a s'
    | (Return r, s') => (Return r, s')
    | (Throw e, s') => (Throw e, s')
    end.

Definition return_ {A} (r : R) : M L R A := fun s => (Return r, s).

Definition throw {A} (e : Thrown) : M L R A := fun s => (Throw e, s).

(** [try { m } catch (e) { h e }] *)
Definition try_catch {A} (m : M L R A) (h : Thrown -> M L R A) : M L R A :=
  fun s =>
    match m s with
    | (Throw e, s') => h e s'
    | other => other
    end.

(** [try { m } finally { f }]: an abrupt completion of [f] replaces the
    completion of [m]; a normal one leaves it. *)
Definition try_finally {A} (m : M L R A) (f : M L R unit) : M L R A :=
  fun s =>
    let (c, s') := m s in
    match f s' with
    | (Normal _, s'') => (c, s'')
    | (Return r, s'') => (Return r, s'')
    | (Throw e, s'') => (Throw e, s'')
    end.

Definition get : M L R L := fun s => (Normal (locals s), s).

Definition modify (f : L -> L) : M L R unit :=
  fun s => (Normal tt, {| locals := f (locals s); trace := trace s |}).

Definition emit (ev : Event) : M L R unit :=
  fun s => (Normal tt, {| locals := locals s; trace := trace s ++ [ev] |}).

(** An external call: the oracle answers from the history, the call and its
    answer are recorded, a rejection is thrown at the call site. *)
Definition call {A} (oracle : Trace -> Outcome A) (ev : Outcome A -> Event)
  : M L R A :=
  fun s =>
    let o := oracle (trace s) in
    (match o with Resolved a => Normal a | Rejected e => Throw e end,
     {| locals := locals s; trace := trace s ++ [ev o] |}).
End Monad.

Notation "x <- c1 ;; c2" := (bind c1 (fun x => c2))
  (at level 61, c1 at next level, right associativity).
Notation "c1 ;; c2" := (bind c1 (fun _ => c2))
  (at level 61, right associativity).

(** An invocation starts from an empty history. *)
Definition invoke {L R} (init : L) (body : M L R unit) : Completion R unit * Trace :=
  let (c, s) := body {| locals := init; trace := [] |} in (c, trace s).

(** ** The actions *)

Section Actions.
Variable env : Env.

(** [kernel.browsers.deleteByID(id)] *)
Definition deleteByID {L R} (id : option string) : M L R unit :=
  call (fun h => kernel_browsers_deleteByID env h id) (browsers_deleteByID id).

(** [kernel.browsers.create(params)] *)
Definition browsersCreate {L R} (params : BrowserCreateParams.t)
  : M L R KernelBrowser.t :=
  call (fun h => kernel_browsers_create env h params) (browsers_create params).

(** *** end-session-and-save-profile *)
Definition end_session_and_save_profile
    (ctx : KernelContext.t) (payload : option EndSessionAndSaveProfilePayload.t)
  : M unit EndSessionAndSaveProfileOutput.t unit :=
  match payload with
  | None => return_ {| EndSessionAndSaveProfileOutput.success := false |}
  | Some p =>
      if negb (truthy (EndSessionAndSaveProfilePayload.session_id p)) then
        return_ {| EndSessionAndSaveProfileOutput.success := false |}
      else
        let session_id := EndSessionAndSaveProfilePayload.session_id p in
        try_catch
          (deleteByID session_id ;;
           emit (console_log "Browser session deleted and profile saved." None))
          (fun error =>
             emit (console_error "Error deleting browser" (Some (LThrown error))) ;;
             return_ {| EndSessionAndSaveProfileOutput.success := false |}) ;;
        return_ {| EndSessionAndSaveProfileOutput.success := true |}
  end.

(** *** create-profile-browser *)
Definition profileName : string :=
  let timestamp := Date_now env in
  let randomStr := substring 2 6 (Math_random_toString36 env) in
  "profile_" ++ number_toString timestamp ++ "_" ++ randomStr.

Definition create_profile_browser (ctx : KernelContext.t)
  : M unit CreateProfileBrowserOutput.t unit :=
  try_catch
    (profile <- call (fun h => kernel_profiles_create env h profileName)
                     (profiles_create profileName) ;;
     emit (console_log "Profile created" (Some (LProfile profile))))
    (fun error =>
       match error with
       | ConflictError _ => emit (console_log "Profile already exists" None)
       | _ => throw error
       end) ;;
  kernelBrowser <- browsersCreate
    {| BrowserCreateParams.invocation_id := KernelContext.invocation_id ctx;
       BrowserCreateParams.profile_name := Some profileName;
       BrowserCreateParams.profile_save_changes := true;
       BrowserCreateParams.stealth := true |} ;;
  emit (console_log "Browser created" (Some (LBrowser kernelBrowser))) ;;
  return_
    {| CreateProfileBrowserOutput.browser_live_view_url :=
         or_empty (KernelBrowser.browser_live_view_url kernelBrowser);
       CreateProfileBrowserOutput.profile_name := profileName;
       CreateProfileBrowserOutput.session_id :=
         or_empty (KernelBrowser.session_id kernelBrowser) |}.

(** *** execute-task-with-profile *)

(** [let kernelBrowser; let agent;] and, inside the [try], [let extractedData]. *)
Record Locals : Type := {
  kernelBrowser : option KernelBrowser.t;
  agent : option Agent;
  extractedData : JsValue
}.

Definition declared : Locals :=
  {| kernelBrowser := None; agent := None; extractedData := JUndefined |}.

Definition set_kernelBrowser (b : KernelBrowser.t) (l : Locals) : Locals :=
  {| kernelBrowser := Some b; agent := agent l; extractedData := extractedData l |}.
Definition set_agent (a : Agent) (l : Locals) : Locals :=
  {| kernelBrowser := kernelBrowser l; agent := Some a; extractedData := extractedData l |}.
Definition set_extractedData (v : JsValue) (l : Locals) : Locals :=
  {| kernelBrowser := kernelBrowser l; agent := agent l; extractedData := v |}.

(** [kernelBrowser?.session_id] *)
Definition session_id_of (b : option KernelBrowser.t) : option string :=
  match b with
  | Some k => KernelBrowser.session_id k
  | None => None
  end.

(** [error instanceof Error ? error.message : String(error)]: the message,
    or what the string conversion throws. *)
Definition error_message (error : Thrown) : Outcome string :=
  match error with
  | ConflictError message => Resolved message
  | Error message => Resolved message
  | NonError str => Resolved str
  | Unconvertible thrown => Rejected thrown
  end.

Definition flexibleSchema : Zod :=
  z_object [("data", z_record z_any)].

Definition llm_model_name : string := "claude-sonnet-4-20250514".

Definition failure (message : string) (sid : option string)
  : ExecuteTaskWithProfileOutput.t :=
  {| ExecuteTaskWithProfileOutput.success := false;
     ExecuteTaskWithProfileOutput.task_result := None;
     ExecuteTaskWithProfileOutput.extracted_data := None;
     ExecuteTaskWithProfileOutput.error := Some message;
     ExecuteTaskWithProfileOutput.session_id := sid |}.

Definition XM : Type -> Type := M Locals ExecuteTaskWithProfileOutput.t.

(** The body of the [try] block. *)
Definition execute_try (ctx : KernelContext.t)
    (profile_name task url extract_instructions : option string) : XM unit :=
  kb <- browsersCreate
    {| BrowserCreateParams.invocation_id := KernelContext.invocation_id ctx;
       BrowserCreateParams.profile_name := profile_name;
       BrowserCreateParams.profile_save_changes := false;
       BrowserCreateParams.stealth := true |} ;;
  modify (set_kernelBrowser kb) ;;
  emit (console_log "Browser created with profile:" (Some (LString profile_name))) ;;
  let options :=
    {| AgentOptions.url := or_empty url;
       AgentOptions.narrate := true;
       AgentOptions.llm_provider := "anthropic";
       AgentOptions.llm_model := llm_model_name;
       AgentOptions.llm_apiKey := ANTHROPIC_API_KEY env;
       AgentOptions.virtualScreenDimensions := (1024, 768)%Z;
       AgentOptions.browser_cdp := KernelBrowser.cdp_ws_url kb;
       AgentOptions.viewport := (1024, 768)%Z |} in
  a <- call (fun h => magnitude_startBrowserAgent env h options)
            (startBrowserAgent options) ;;
  modify (set_agent a) ;;
  emit (console_log "Browser agent started, executing task:" (Some (LString task))) ;;
  result <- call (fun h => magnitude_act env h a task) (agent_act a task) ;;
  modify (set_extractedData JNull) ;;
  (if truthy extract_instructions then
     try_catch
       (emit (console_log "Extracting data with instructions:"
                          (Some (LString extract_instructions))) ;;
        data <- call (fun h => magnitude_extract env h a extract_instructions
                                                 flexibleSchema)
                     (agent_extract a extract_instructions flexibleSchema) ;;
        modify (set_extractedData data) ;;
        emit (console_log "Data extracted successfully" None))
       (fun extractError =>
          emit (console_error "Error extracting data:" (Some (LThrown extractError))))
   else ret tt) ;;
  l <- get ;;
  return_
    {| ExecuteTaskWithProfileOutput.success := true;
       ExecuteTaskWithProfileOutput.task_result := Some result;
       ExecuteTaskWithProfileOutput.extracted_data := Some (extractedData l);
       ExecuteTaskWithProfileOutput.error := None;
       ExecuteTaskWithProfileOutput.session_id := KernelBrowser.session_id kb |}.

(** The [catch (error)] block.  The object literal is evaluated field by
    field: a string conversion that throws leaves the block by that throw. *)
Definition execute_catch (error : Thrown) : XM unit :=
  emit (console_error "Error executing task:" (Some (LThrown error))) ;;
  message <- match error_message error with
             | Resolved message => ret message
             | Rejected thrown => throw thrown
             end ;;
  l <- get ;;
  return_ (failure message (session_id_of (kernelBrowser l))).

(** The [finally] block. *)
Definition execute_finally : XM unit :=
  l <- get ;;
  if truthy (session_id_of (kernelBrowser l)) then
    try_catch
      (deleteByID (session_id_of (kernelBrowser l)) ;;
       emit (console_log "Browser session cleaned up" None) ;;
       l' <- get ;;
       match agent l' with
       | Some a =>
           call (fun h => magnitude_stop env h a) (agent_stop a) ;;
           emit (console_log "Browser agent stopped" None)
       | None => ret tt
       end)
      (fun cleanupError =>
         emit (console_error "Error cleaning up browser session and stopping agent:"
                             (Some (LThrown cleanupError))))
  else ret tt.

Definition execute_task_with_profile
    (ctx : KernelContext.t) (payload : option ExecuteTaskWithProfilePayload.t)
  : XM unit :=
  match payload with
  | None => return_ (failure "Payload is required with profile_name and task" None)
  | Some p =>
      let profile_name := ExecuteTaskWithProfilePayload.profile_name p in
      let task := ExecuteTaskWithProfilePayload.task p in
      let url := ExecuteTaskWithProfilePayload.url p in
      let extract_instructions := ExecuteTaskWithProfilePayload.extract_instructions p in
      if negb (truthy (ANTHROPIC_API_KEY env)) then
        return_ (failure "ANTHROPIC_API_KEY environment variable is not set" None)
      else
        try_finally
          (try_catch (execute_try ctx profile_name task url extract_instructions)
                     execute_catch)
          execute_finally
  end.
End Actions.

(** *** get-payload-schemas *)
Definition field (type : string) (required : bool) (description : string)
  : PayloadField.t :=
  {| PayloadField.type := type;
     PayloadField.required := required;
     PayloadField.description := description |}.

Definition payload_schemas : GetPayloadSchemasOutput :=
  [ ("create-profile-browser",
     {| ActionSchema.description :=
          "Creates a new browser with a persistent profile for authentication";
        ActionSchema.payload := None |});
    ("end-session-and-save-profile",
     {| ActionSchema.description :=
          "Ends a browser session and saves the profile state";
        ActionSchema.payload := Some
          [ ("session_id",
             field "string" true "The browser session ID to terminate") ] |});
    ("execute-task-with-profile",
     {| ActionSchema.description :=
          "Executes automated tasks using an existing profile with pre-loaded authentication";
        ActionSchema.payload := Some
          [ ("profile_name",
             field "string" true
                   "The profile name to use (from create-profile-browser)");
            ("task",
             field "string" true
                   "Natural language description of the task to execute");
            ("url",
             field "string" false "Optional starting URL for the browser");
            ("extract_instructions",
             field "string" false
                   "Optional instructions for extracting structured data after task completion") ] |});
    ("get-payload-schemas",
     {| ActionSchema.description :=
          "Returns the expected payload format for each action";
        ActionSchema.payload := None |}) ].

Definition get_payload_schemas {L} (ctx : KernelContext.t)
  : M L GetPayloadSchemasOutput unit :=
  return_ payload_schemas.

(** The names under which [app.action] registers the four handlers. *)
Definition app_actions : list string :=
  [ "create-profile-browser"; "end-session-and-save-profile";
    "execute-task-with-profile"; "get-payload-schemas" ].

(** ** One invocation of each action *)

Definition run_create_profile_browser (env : Env) (ctx : KernelContext.t) :=
  invoke tt (create_profile_browser env ctx).

Definition run_end_session_and_save_profile (env : Env) (ctx : KernelContext.t)
    (payload : option EndSessionAndSaveProfilePayload.t) :=
  invoke tt (end_session_and_save_profile env ctx payload).

Definition run_execute_task_with_profile (env : Env) (ctx : KernelContext.t)
    (payload : option ExecuteTaskWithProfilePayload.t) :=
  invoke declared (execute_task_with_profile env ctx payload).

Definition run_get_payload_schemas (env : Env) (ctx : KernelContext.t) :=
  invoke tt (get_payload_schemas ctx).

(** ** Observations on a history *)

Definition count (p : Event -> bool) (t : Trace) : nat := length (filter p t).

(** Calls to the Browser Provisioning Service. *)
Definition is_provisioning_call (ev : Event) : bool :=
  match ev with
  | profiles_create _ _ | browsers_create _ _ | browsers_deleteByID _ _ => true
  | _ => false
  end.

Definition is_deleteByID (ev : Event) : bool :=
  match ev with browsers_deleteByID _ _ => true | _ => false end.

Definition is_deleteByID_of (sid : string) (ev : Event) : bool :=
  match ev with
  | browsers_deleteByID (Some id) _ => String.eqb id sid
  | _ => false
  end.

Definition is_agent_stop (ev : Event) : bool :=
  match ev with agent_stop _ _ => true | _ => false end.

Definition is_console (ev : Event) : bool :=
  match ev with console_log _ _ | console_error _ _ => true | _ => false end.

(** The history from the first session termination on, and what precedes it. *)
Fixpoint cleanup_phase (t : Trace) : Trace :=
  match t with
  | [] => []
  | ev :: t' => if is_deleteByID ev then t else cleanup_phase t'
  end.

Fixpoint before_cleanup (t : Trace) : Trace :=
  match t with
  | [] => []
  | ev :: t' => if is_deleteByID ev then [] else ev :: before_cleanup t'
  end.

(** Session creation, agent start or task execution that threw. *)
Definition failed_step (ev : Event) : bool :=
  match ev with
  | browsers_create _ (Rejected _)
  | startBrowserAgent _ (Rejected _)
  | agent_act _ _ (Rejected _) => true
  | _ => false
  end.

(** A session identifier was obtained. *)
Definition session_obtained (t : Trace) (sid : string) : Prop :=
  exists params b,
    In (browsers_create params (Resolved b)) t /\
    KernelBrowser.session_id b = Some sid /\ sid <> "".

(** The request [create-profile-browser] sends to [kernel.browsers.create]. *)
Definition profile_browser_params (env : Env) (ctx : KernelContext.t)
  : BrowserCreateParams.t :=
  {| BrowserCreateParams.invocation_id := KernelContext.invocation_id ctx;
     BrowserCreateParams.profile_name := Some (profileName env);
     BrowserCreateParams.profile_save_changes := true;
     BrowserCreateParams.stealth := true |}.

Definition profile_browser_output (env : Env) (b : KernelBrowser.t)
  : CreateProfileBrowserOutput.t :=
  {| CreateProfileBrowserOutput.browser_live_view_url :=
       or_empty (KernelBrowser.browser_live_view_url b);
     CreateProfileBrowserOutput.profile_name := profileName env;
     CreateProfileBrowserOutput.session_id :=
       or_empty (KernelBrowser.session_id b) |}.


(** The same payload without extraction instructions. *)
Definition without_extract_instructions (p : ExecuteTaskWithProfilePayload.t)
  : ExecuteTaskWithProfilePayload.t :=
  {| ExecuteTaskWithProfilePayload.profile_name :=
       ExecuteTaskWithProfilePayload.profile_name p;
     ExecuteTaskWithProfilePayload.task := ExecuteTaskWithProfilePayload.task p;
     ExecuteTaskWithProfilePayload.url := ExecuteTaskWithProfilePayload.url p;
     ExecuteTaskWithProfilePayload.extract_instructions := None |}.

(** ** Concrete collaborators, for examples *)

Definition ctx0 : KernelContext.t := {| KernelContext.invocation_id := "inv_1" |}.

Definition browser_S2 : KernelBrowser.t :=
  {| KernelBrowser.session_id := Some "S2";
     KernelBrowser.cdp_ws_url := Some "wss://cdp/S2";
     KernelBrowser.browser_live_view_url := Some "https://live/S2" |}.

(** Every call succeeds. *)
Definition env_ok : Env :=
  {| ANTHROPIC_API_KEY := Some "sk-ant";
     Date_now := 1700000000000;
     Math_random_toString36 := "0.k3j9x2mq1p";
     kernel_profiles_create := fun _ name =>
       Resolved {| Profile.id := "p1"; Profile.name := Some name |};
     kernel_browsers_create := fun _ _ => Resolved browser_S2;
     kernel_browsers_deleteByID := fun _ _ => Resolved tt;
     magnitude_startBrowserAgent := fun _ _ => Resolved (AgentHandle 0);
     magnitude_act := fun _ _ _ => Resolved (JStr "done");
     magnitude_extract := fun _ _ _ _ =>
       Resolved (JObj [("data", JObj [("title", JStr "news")])]);
     magnitude_stop := fun _ _ => Resolved (Resolved tt) |}.

Definition with_profiles_create (f : Trace -> string -> Outcome Profile.t)
    (env : Env) : Env :=
  {| ANTHROPIC_API_KEY := ANTHROPIC_API_KEY env;
     Date_now := Date_now env;
     Math_random_toString36 := Math_random_toString36 env;
     kernel_profiles_create := f;
     kernel_browsers_create := kernel_browsers_create env;
     kernel_browsers_deleteByID := kernel_browsers_deleteByID env;
     magnitude_startBrowserAgent := magnitude_startBrowserAgent env;
     magnitude_act := magnitude_act env;
     magnitude_extract := magnitude_extract env;
     magnitude_stop := magnitude_stop env |}.

Definition with_deleteByID (f : Trace -> option string -> Outcome unit)
    (env : Env) : Env :=
  {| ANTHROPIC_API_KEY := ANTHROPIC_API_KEY env;
     Date_now := Date_now env;
     Math_random_toString36 := Math_random_toString36 env;
     kernel_profiles_create := kernel_profiles_create env;
     kernel_browsers_create := kernel_browsers_create env;
     kernel_browsers_deleteByID := f;
     magnitude_startBrowserAgent := magnitude_startBrowserAgent env;
     magnitude_act := magnitude_act env;
     magnitude_extract := magnitude_extract env;
     magnitude_stop := magnitude_stop env |}.

Definition with_extract
    (f : Trace -> Agent -> option string -> Zod -> Outcome JsValue)
    (env : Env) : Env :=
  {| ANTHROPIC_API_KEY := ANTHROPIC_API_KEY env;
     Date_now := Date_now env;
     Math_random_toString36 := Math_random_toString36 env;
     kernel_profiles_create := kernel_profiles_create env;
     kernel_browsers_create := kernel_browsers_create env;
     kernel_browsers_deleteByID := kernel_browsers_deleteByID env;
     magnitude_startBrowserAgent := magnitude_startBrowserAgent env;
     magnitude_act := magnitude_act env;
     magnitude_extract := f;
     magnitude_stop := magnitude_stop env |}.

Definition with_startBrowserAgent (f : Trace -> AgentOptions.t -> Outcome Agent)
    (env : Env) : Env :=
  {| ANTHROPIC_API_KEY := ANTHROPIC_API_KEY env;
     Date_now := Date_now env;
     Math_random_toString36 := Math_random_toString36 env;
     kernel_profiles_create := kernel_profiles_create env;
     kernel_browsers_create := kernel_browsers_create env;
     kernel_browsers_deleteByID := kernel_browsers_deleteByID env;
     magnitude_startBrowserAgent := f;
     magnitude_act := magnitude_act env;
     magnitude_extract := magnitude_extract env;
     magnitude_stop := magnitude_stop env |}.

Definition without_api_key (env : Env) : Env :=
  {| ANTHROPIC_API_KEY := None;
     Date_now := Date_now env;
     Math_random_toString36 := Math_random_toString36 env;
     kernel_profiles_create := kernel_profiles_create env;
     kernel_browsers_create := kernel_browsers_create env;
     kernel_browsers_deleteByID := kernel_browsers_deleteByID env;
     magnitude_startBrowserAgent := magnitude_startBrowserAgent env;
     magnitude_act := magnitude_act env;
     magnitude_extract := magnitude_extract env;
     magnitude_stop := magnitude_stop env |}.

Definition env_conflict : Env :=
  with_profiles_create (fun _ _ => Rejected (ConflictError "409 profile exists")) env_ok.

Definition env_unavailable : Env :=
  with_profiles_create (fun _ _ => Rejected (Error "503 service unavailable")) env_ok.

Definition env_extract_fails : Env :=
  with_extract (fun _ _ _ _ => Rejected (Error "schema mismatch")) env_ok.

Definition env_delete_fails : Env :=
  with_deleteByID (fun _ _ => Rejected (Error "504 gateway timeout")) env_ok.

Definition env_agent_fails : Env :=
  with_startBrowserAgent (fun _ _ => Rejected (Error "cdp connection refused")) env_ok.

Definition task_payload (extract_instructions : option string)
  : ExecuteTaskWithProfilePayload.t :=
  {| ExecuteTaskWithProfilePayload.profile_name := Some "profile_1_abc";
     ExecuteTaskWithProfilePayload.task := Some "Go to ign.com and say the latest news stories";
     ExecuteTaskWithProfilePayload.url := None;
     ExecuteTaskWithProfilePayload.extract_instructions := extract_instructions |}.

(** The JSON payload [{}]. *)
Definition empty_payload : ExecuteTaskWithProfilePayload.t :=
  {| ExecuteTaskWithProfilePayload.profile_name := None;
     ExecuteTaskWithProfilePayload.task := None;
     ExecuteTaskWithProfilePayload.url := None;
     ExecuteTaskWithProfilePayload.extract_instructions := None |}.

(** ** How a body can complete *)

Section CompletionKinds.
Context {L R : Type}.

Definition always_returns {A} (m : M L R A) : Prop :=
  forall s, exists r, fst (m s) = Return r.

Definition always_normal {A} (m : M L R A) : Prop :=
  forall s, exists a, fst (m s) = Normal a.

Definition never_normal {A} (m : M L R A) : Prop :=
  forall s a, fst (m s) <> Normal a.

Definition never_returns {A} (m : M L R A) : Prop :=
  forall s r, fst (m s) <> Return r.

Definition never_throws {A} (m : M L R A) : Prop :=
  forall s e, fst (m s) <> Throw e.
End CompletionKinds.

(** ** Further observations on a history *)

Definition is_profiles_create (ev : Event) : bool :=
  match ev with profiles_create _ _ => true | _ => false end.

Definition is_browsers_create (ev : Event) : bool :=
  match ev with browsers_create _ _ => true | _ => false end.

(** The error thrown by session creation, agent start or task execution. *)
Definition failed_step_error (ev : Event) : option Thrown :=
  match ev with
  | browsers_create _ (Rejected e)
  | startBrowserAgent _ (Rejected e)
  | agent_act _ _ (Rejected e) => Some e
  | _ => None
  end.

(** A failed step whose error has a message: it is an Error, or its string
    conversion does not throw. *)
Definition step_has_message (ev : Event) : bool :=
  match failed_step_error ev with
  | Some e =>
      match error_message e with
      | Resolved _ => true
      | Rejected _ => false
      end
  | None => true
  end.


(** The identifier of the session the history created, if any. *)
Fixpoint created_session_id (t : Trace) : option string :=
  match t with
  | [] => None
  | browsers_create _ (Resolved b) :: _ => KernelBrowser.session_id b
  | _ :: t' => created_session_id t'
  end.

(** The external operations, in the order the source text of
    [execute-task-with-profile] calls them. *)
Inductive CallKind : Type :=
| KProfilesCreate | KBrowsersCreate | KStart | KAct | KExtract | KDelete | KStop.

Definition kind_of (ev : Event) : option CallKind :=
  match ev with
  | profiles_create _ _ => Some KProfilesCreate
  | browsers_create _ _ => Some KBrowsersCreate
  | startBrowserAgent _ _ => Some KStart
  | agent_act _ _ _ => Some KAct
  | agent_extract _ _ _ _ => Some KExtract
  | browsers_deleteByID _ _ => Some KDelete
  | agent_stop _ _ => Some KStop
  | console_log _ _ | console_error _ _ => None
  end.

Definition CallKind_eqb (k k' : CallKind) : bool :=
  match k, k' with
  | KProfilesCreate, KProfilesCreate | KBrowsersCreate, KBrowsersCreate
  | KStart, KStart | KAct, KAct | KExtract, KExtract
  | KDelete, KDelete | KStop, KStop => true
  | _, _ => false
  end.

(** The external calls of a history, console output left out. *)
Fixpoint external_calls (t : Trace) : list CallKind :=
  match t with
  | [] => []
  | ev :: t' =>
      match kind_of ev with
      | Some k => k :: external_calls t'
      | None => external_calls t'
      end
  end.

(** [l] is [pattern] with some elements left out. *)
Fixpoint subsequence (l pattern : list CallKind) : bool :=
  match l, pattern with
  | [], _ => true
  | _ :: _, [] => false
  | k :: l', k' :: pattern' =>
      if CallKind_eqb k k' then subsequence l' pattern' else subsequence l pattern'
  end.

Definition execute_call_order : list CallKind :=
  [KBrowsersCreate; KStart; KAct; KExtract; KDelete; KStop].

(** Two environments that answer alike up to the [finally] block: they may
    differ in [deleteByID] and [agent.stop] only. *)
Definition same_until_cleanup (env env' : Env) : Prop :=
  ANTHROPIC_API_KEY env = ANTHROPIC_API_KEY env' /\
  (forall h x, kernel_browsers_create env h x = kernel_browsers_create env' h x) /\
  (forall h x, magnitude_startBrowserAgent env h x
               = magnitude_startBrowserAgent env' h x) /\
  (forall h a x, magnitude_act env h a x = magnitude_act env' h a x) /\
  (forall h a x z, magnitude_extract env h a x z = magnitude_extract env' h a x z).

Definition with_browsers_create
    (f : Trace -> BrowserCreateParams.t -> Outcome KernelBrowser.t) (env : Env) : Env :=
  {| ANTHROPIC_API_KEY := ANTHROPIC_API_KEY env;
     Date_now := Date_now env;
     Math_random_toString36 := Math_random_toString36 env;
     kernel_profiles_create := kernel_profiles_create env;
     kernel_browsers_create := f;
     kernel_browsers_deleteByID := kernel_browsers_deleteByID env;
     magnitude_startBrowserAgent := magnitude_startBrowserAgent env;
     magnitude_act := magnitude_act env;
     magnitude_extract := magnitude_extract env;
     magnitude_stop := magnitude_stop env |}.

Definition with_act (f : Trace -> Agent -> option string -> Outcome JsValue)
    (env : Env) : Env :=
  {| ANTHROPIC_API_KEY := ANTHROPIC_API_KEY env;
     Date_now := Date_now env;
     Math_random_toString36 := Math_random_toString36 env;
     kernel_profiles_create := kernel_profiles_create env;
     kernel_browsers_create := kernel_browsers_create env;
     kernel_browsers_deleteByID := kernel_browsers_deleteByID env;
     magnitude_startBrowserAgent := magnitude_startBrowserAgent env;
     magnitude_act := f;
     magnitude_extract := magnitude_extract env;
     magnitude_stop := magnitude_stop env |}.

(** A session object that carries no identifier. *)
Definition browser_without_id : KernelBrowser.t :=
  {| KernelBrowser.session_id := None;
     KernelBrowser.cdp_ws_url := Some "wss://cdp/anonymous";
     KernelBrowser.browser_live_view_url := None |}.

Definition env_no_session_id : Env :=
  with_browsers_create (fun _ _ => Resolved browser_without_id) env_ok.

Definition env_act_fails : Env :=
  with_act (fun _ _ _ => Rejected (Error "navigation timeout")) env_ok.

(** [agent.act] throws an object without string conversion, such as
    [Object.create(null)]. *)
Definition env_act_throws_bare_object : Env :=
  with_act (fun _ _ _ =>
              Rejected (Unconvertible (Error "Cannot convert object to primitive value")))
           env_ok.

Definition session_payload (id : string) : EndSessionAndSaveProfilePayload.t :=
  {| EndSessionAndSaveProfilePayload.session_id := Some id |}.

(** ** Facts about completions *)

Section Completions.
Context {L R : Type}.

Lemma return_always_returns A (r : R) : always_returns (@return_ L R A r).
Proof. intros s. exists r. reflexivity. Qed.

Lemma ret_always_normal A (a : A) : always_normal (@ret L R A a).
Proof. intros s. exists a. reflexivity. Qed.

Lemma emit_always_normal ev : always_normal (@emit L R ev).
Proof. intros s. exists tt. reflexivity. Qed.

Lemma get_always_normal : always_normal (@get L R).
Proof. intros s. exists (locals s). reflexivity. Qed.

Lemma modify_always_normal f : always_normal (@modify L R f).
Proof. intros s. exists tt. reflexivity. Qed.

Lemma always_returns_never_normal A (m : M L R A) :
  always_returns m -> never_normal m.
Proof. intros H s a E. destruct (H s) as [r Hr]. congruence. Qed.

Lemma always_normal_never_returns A (m : M L R A) :
  always_normal m -> never_returns m.
Proof. intros H s r E. destruct (H s) as [a Ha]. congruence. Qed.

Lemma call_never_returns A (oracle : Trace -> Outcome A) ev :
  never_returns (@call L R A oracle ev).
Proof.
  intros s r. unfold call. simpl.
  destruct (oracle (trace s)); discriminate.
Qed.

Lemma bind_always_returns A B (m : M L R A) (k : A -> M L R B) :
  always_normal m -> (forall a, always_returns (k a)) ->
  always_returns (bind m k).
Proof.
  intros Hm Hk s. unfold bind.
  destruct (Hm s) as [a Ha]. destruct (m s) as [c s']. simpl in Ha. subst c.
  apply Hk.
Qed.

Lemma bind_always_normal A B (m : M L R A) (k : A -> M L R B) :
  always_normal m -> (forall a, always_normal (k a)) ->
  always_normal (bind m k).
Proof.
  intros Hm Hk s. unfold bind.
  destruct (Hm s) as [a Ha]. destruct (m s) as [c s']. simpl in Ha. subst c.
  apply Hk.
Qed.

Lemma bind_never_normal A B (m : M L R A) (k : A -> M L R B) :
  (forall a, never_normal (k a)) -> never_normal (bind m k).
Proof.
  intros Hk s b. unfold bind.
  destruct (m s) as [[a | r | e] s']; simpl; try discriminate.
  apply Hk.
Qed.

Lemma bind_never_returns A B (m : M L R A) (k : A -> M L R B) :
  never_returns m -> (forall a, never_returns (k a)) ->
  never_returns (bind m k).
Proof.
  intros Hm Hk s r. unfold bind. specialize (Hm s).
  destruct (m s) as [[a | r' | e] s']; simpl in *; try discriminate.
  - apply Hk.
  - exfalso. apply (Hm r'). reflexivity.
Qed.

(** A [catch] block that returns turns a body that cannot fall through
    into one that returns. *)
Lemma try_catch_always_returns A (m : M L R A) h :
  never_normal m -> (forall e, always_returns (h e)) ->
  always_returns (try_catch m h).
Proof.
  intros Hm Hh s. unfold try_catch. specialize (Hm s).
  destruct (m s) as [[a | r | e] s']; simpl in *.
  - exfalso. apply (Hm a). reflexivity.
  - exists r. reflexivity.
  - apply Hh.
Qed.

(** A [catch] block that completes normally swallows every throw. *)
Lemma try_catch_always_normal A (m : M L R A) h :
  never_returns m -> (forall e, always_normal (h e)) ->
  always_normal (try_catch m h).
Proof.
  intros Hm Hh s. unfold try_catch. specialize (Hm s).
  destruct (m s) as [[a | r | e] s']; simpl in *.
  - exists a. reflexivity.
  - exfalso. apply (Hm r). reflexivity.
  - apply Hh.
Qed.

(** A [finally] block that completes normally keeps the completion. *)
Lemma try_finally_always_returns A (m : M L R A) f :
  always_returns m -> always_normal f -> always_returns (try_finally m f).
Proof.
  intros Hm Hf s. unfold try_finally.
  destruct (Hm s) as [r Hr]. destruct (m s) as [c s']. simpl in Hr. subst c.
  destruct (Hf s') as [u Hu]. destruct (f s') as [c' s'']. simpl in Hu. subst c'.
  exists r. reflexivity.
Qed.

Lemma always_returns_never_throws A (m : M L R A) :
  always_returns m -> never_throws m.
Proof. intros H s e E. destruct (H s) as [r Hr]. congruence. Qed.

Lemma always_normal_never_throws A (m : M L R A) :
  always_normal m -> never_throws m.
Proof. intros H s e E. destruct (H s) as [a Ha]. congruence. Qed.

(** Whatever the body does, a [catch] block that cannot throw leaves
    nothing thrown. *)
Lemma try_catch_never_throws A (m : M L R A) h :
  (forall e, never_throws (h e)) -> never_throws (try_catch m h).
Proof.
  intros Hh s e. unfold try_catch.
  destruct (m s) as [[a | r | e'] s']; simpl; try discriminate.
  apply Hh.
Qed.


End Completions.

Create HintDb completion.
#[export] Hint Resolve return_always_returns ret_always_normal emit_always_normal
  get_always_normal modify_always_normal call_never_returns
  always_returns_never_normal always_normal_never_returns
  bind_always_returns bind_always_normal bind_never_normal bind_never_returns
  try_catch_always_returns try_catch_always_normal try_finally_always_returns
  always_returns_never_throws always_normal_never_throws try_catch_never_throws
  : completion.

(** ** The completion of each action *)


Lemma execute_try_never_normal env ctx profile_name task url extract_instructions :
  never_normal (execute_try env ctx profile_name task url extract_instructions).
Proof.
  unfold execute_try.
  repeat (apply bind_never_normal; intros).
  auto with completion.
Qed.

Lemma execute_finally_always_normal env : always_normal (execute_finally env).
Proof.
  unfold execute_finally.
  apply bind_always_normal; auto with completion.
  intros l. destruct (truthy _); auto with completion.
  apply try_catch_always_normal; auto with completion.
  unfold deleteByID.
  repeat (apply bind_never_returns; auto with completion; intros).
  destruct (agent _); auto with completion.
Qed.

(** ** end-session-and-save-profile *)

(** C5.  When the payload is absent, or its session identifier is missing or
    empty, EndSessionAndSaveProfile returns [{success: false}] and the
    provisioning service is not called (nothing at all happens). *)
Theorem end_session_without_id_returns_false_without_call env ctx payload :
  (payload = None \/
   exists p, payload = Some p /\
             truthy (EndSessionAndSaveProfilePayload.session_id p) = false) ->
  run_end_session_and_save_profile env ctx payload
    = (Return {| EndSessionAndSaveProfileOutput.success := false |}, []) /\
  count is_provisioning_call
        (snd (run_end_session_and_save_profile env ctx payload)) = 0.
Proof.
  unfold run_end_session_and_save_profile, invoke, end_session_and_save_profile.
  intros [-> | [p [-> Hp]]].
  - split; reflexivity.
  - rewrite Hp. split; reflexivity.
Qed.

Lemma end_session_without_id_returns_false_without_call_witness :
  run_end_session_and_save_profile env_ok ctx0
    (Some {| EndSessionAndSaveProfilePayload.session_id := Some "" |})
    = (Return {| EndSessionAndSaveProfileOutput.success := false |}, []) /\
  count is_provisioning_call
    (snd (run_end_session_and_save_profile env_ok ctx0
       (Some {| EndSessionAndSaveProfilePayload.session_id := Some "" |}))) = 0.
Proof.
  apply (@end_session_without_id_returns_false_without_call env_ok ctx0).
  right. eexists. split; reflexivity.
Defined.

(** C4.  With a session identifier present, a termination call that throws
    makes EndSessionAndSaveProfile return [{success: false}]: the error is
    logged and is not thrown to the caller. *)
Theorem end_session_termination_failure_returns_false env ctx p sid e :
  EndSessionAndSaveProfilePayload.session_id p = Some sid ->
  sid <> "" ->
  kernel_browsers_deleteByID env [] (Some sid) = Rejected e ->
  run_end_session_and_save_profile env ctx (Some p)
    = (Return {| EndSessionAndSaveProfileOutput.success := false |},
       [ browsers_deleteByID (Some sid) (Rejected e);
         console_error "Error deleting browser" (Some (LThrown e)) ]).
Proof.
  intros Hsid Hne Hdel.
  unfold run_end_session_and_save_profile, invoke, end_session_and_save_profile.
  rewrite Hsid.
  assert (Ht : truthy (Some sid) = true) by (destruct sid; [congruence | reflexivity]).
  rewrite Ht. cbn.
  unfold try_catch, bind, deleteByID, call. cbn.
  rewrite Hdel. reflexivity.
Qed.

Lemma end_session_termination_failure_returns_false_witness :
  run_end_session_and_save_profile
    (with_deleteByID (fun _ _ => Rejected (Error "session not found")) env_ok) ctx0
    (Some {| EndSessionAndSaveProfilePayload.session_id := Some "S1" |})
    = (Return {| EndSessionAndSaveProfileOutput.success := false |},
       [ browsers_deleteByID (Some "S1") (Rejected (Error "session not found"));
         console_error "Error deleting browser"
                       (Some (LThrown (Error "session not found"))) ]).
Proof.
  apply end_session_termination_failure_returns_false.
  - reflexivity.
  - discriminate.
  - reflexivity.
Defined.

(** ** execute-task-with-profile: the credential check *)

(** C2.  With a payload but no ANTHROPIC_API_KEY (unset or empty),
    ExecuteTaskWithProfile returns [{success: false, error: <message>}] and
    the provisioning service receives no call: no session is created. *)
Theorem execute_without_credential_creates_no_session env ctx p :
  truthy (ANTHROPIC_API_KEY env) = false ->
  exists r tr,
    run_execute_task_with_profile env ctx (Some p) = (Return r, tr) /\
    ExecuteTaskWithProfileOutput.success r = false /\
    ExecuteTaskWithProfileOutput.error r
      = Some "ANTHROPIC_API_KEY environment variable is not set" /\
    count is_provisioning_call tr = 0 /\ tr = [].
Proof.
  intros Hkey.
  unfold run_execute_task_with_profile, invoke, execute_task_with_profile.
  rewrite Hkey. cbn.
  do 2 eexists. split; [reflexivity |]. repeat split.
Qed.

Lemma execute_without_credential_creates_no_session_witness :
  exists r tr,
    run_execute_task_with_profile (without_api_key env_ok) ctx0
      (Some (task_payload None)) = (Return r, tr) /\
    ExecuteTaskWithProfileOutput.success r = false /\
    ExecuteTaskWithProfileOutput.error r
      = Some "ANTHROPIC_API_KEY environment variable is not set" /\
    count is_provisioning_call tr = 0 /\ tr = [].
Proof.
  apply execute_without_credential_creates_no_session. reflexivity.
Defined.

(** ** get-payload-schemas *)

(** C9.  GetPayloadSchemas returns the same static mapping on every
    invocation, whatever the collaborators and the context are; the keys of
    the mapping are exactly the four registered action names, each once; and
    the action leaves the state it runs in untouched (no call, no output). *)
Theorem get_payload_schemas_is_static :
  (forall env ctx,
     run_get_payload_schemas env ctx = (Return payload_schemas, [])) /\
  (forall L ctx (s : State L),
     get_payload_schemas ctx s = (Return payload_schemas, s)) /\
  (forall env env' ctx ctx',
     run_get_payload_schemas env ctx = run_get_payload_schemas env' ctx') /\
  map fst payload_schemas = app_actions /\
  NoDup (map fst payload_schemas) /\
  (forall k, In k (map fst payload_schemas) <->
             k = "create-profile-browser" \/
             k = "end-session-and-save-profile" \/
             k = "execute-task-with-profile" \/
             k = "get-payload-schemas").
Proof.
  repeat split; try reflexivity.
  - cbn. repeat constructor; cbn; intuition discriminate.
  - cbn. intuition congruence.
  - cbn. intuition congruence.
Qed.

(** ** create-profile-browser *)

Arguments profileName : simpl never.

Ltac unfold_create :=
  unfold run_create_profile_browser, invoke, create_profile_browser,
    browsersCreate, try_catch, bind, call, emit, return_, throw; cbn.

(** C8.  When profile creation throws, CreateProfileBrowser looks at the
    kind of the error.  On a conflict it logs "Profile already exists" and
    goes on to create the session for the generated profile name, the result
    of the operation being the one of that session creation.  Any other
    error is thrown to the caller at once and no session is requested. *)
Theorem create_profile_browser_tolerates_only_conflict env ctx e :
  kernel_profiles_create env [] (profileName env) = Rejected e ->
  match e with
  | ConflictError _ =>
      let h := [ profiles_create (profileName env) (Rejected e);
                 console_log "Profile already exists" None ] in
      match kernel_browsers_create env h (profile_browser_params env ctx) with
      | Resolved b =>
          run_create_profile_browser env ctx
            = (Return (profile_browser_output env b),
               h ++ [ browsers_create (profile_browser_params env ctx) (Resolved b);
                      console_log "Browser created" (Some (LBrowser b)) ])
      | Rejected e' =>
          run_create_profile_browser env ctx
            = (Throw e',
               h ++ [ browsers_create (profile_browser_params env ctx) (Rejected e') ])
      end
  | _ =>
      run_create_profile_browser env ctx
        = (Throw e, [ profiles_create (profileName env) (Rejected e) ])
  end.
Proof.
  intros Hcreate.
  destruct e as [m | m | v | u]; cbn zeta.
  - destruct (kernel_browsers_create env _ _) eqn:Hb;
      unfold_create; rewrite Hcreate; cbn;
      unfold profile_browser_params in Hb; rewrite Hb; reflexivity.
  - unfold_create. rewrite Hcreate. reflexivity.
  - unfold_create. rewrite Hcreate. reflexivity.
  - unfold_create. rewrite Hcreate. reflexivity.
Qed.

Lemma create_profile_browser_tolerates_only_conflict_witness :
  run_create_profile_browser env_conflict ctx0
    = (Return {| CreateProfileBrowserOutput.browser_live_view_url := "https://live/S2";
                 CreateProfileBrowserOutput.profile_name := "profile_1700000000000_k3j9x2";
                 CreateProfileBrowserOutput.session_id := "S2" |},
       [ profiles_create "profile_1700000000000_k3j9x2"
                         (Rejected (ConflictError "409 profile exists"));
         console_log "Profile already exists" None;
         browsers_create (profile_browser_params env_conflict ctx0) (Resolved browser_S2);
         console_log "Browser created" (Some (LBrowser browser_S2)) ]) /\
  run_create_profile_browser env_unavailable ctx0
    = (Throw (Error "503 service unavailable"),
       [ profiles_create "profile_1700000000000_k3j9x2"
                         (Rejected (Error "503 service unavailable")) ]).
Proof.
  split.
  - exact (@create_profile_browser_tolerates_only_conflict env_conflict ctx0
             (ConflictError "409 profile exists") eq_refl).
  - exact (@create_profile_browser_tolerates_only_conflict env_unavailable ctx0
             (Error "503 service unavailable") eq_refl).
Defined.

(** ** What escapes an action *)


(** ** execute-task-with-profile: task, extraction and cleanup *)

Arguments error_message : simpl nomatch.

Ltac unfold_execute :=
  unfold run_execute_task_with_profile, invoke, execute_task_with_profile,
    execute_try, execute_catch, execute_finally, browsersCreate, deleteByID;
  unfold try_finally, try_catch, bind, call, emit, modify, get, return_, ret;
  cbn.

(** Case analysis on the next answer of a collaborator. *)
Ltac ask :=
  match goal with
  | |- context [kernel_browsers_create ?e ?h ?x] =>
      destruct (kernel_browsers_create e h x) as [[[[|? ?]|] ? ?] | ?] eqn:?
  | |- context [magnitude_startBrowserAgent ?e ?h ?x] =>
      destruct (magnitude_startBrowserAgent e h x) eqn:?
  | |- context [magnitude_act ?e ?h ?a ?x] =>
      destruct (magnitude_act e h a x) eqn:?
  | |- context [magnitude_extract ?e ?h ?a ?x ?z] =>
      destruct (magnitude_extract e h a x z) eqn:?
  | |- context [kernel_browsers_deleteByID ?e ?h ?x] =>
      destruct (kernel_browsers_deleteByID e h x) as [[] | ?] eqn:?
  | |- context [magnitude_stop ?e ?h ?x] =>
      destruct (magnitude_stop e h x) as [[[] | ?] | ?] eqn:?
  | |- context [error_message ?e] =>
      destruct (error_message e) eqn:?
  end; cbn.

(** All the runs of [execute-task-with-profile] on a payload. *)
Ltac run_cases p :=
  destruct p as [? ? ? [[| ? ?] |]];
  unfold_execute;
  destruct (truthy (ANTHROPIC_API_KEY _)) eqn:?; cbn;
  repeat ask.

(** Use what is known of the string conversions in [H]. *)
Ltac use_messages H :=
  cbn in H;
  repeat match goal with
         | Heq : error_message _ = _ |- _ => rewrite Heq in H
         end;
  cbn in H.

(** Which event of a concrete history a given event is. *)
Ltac elim_In H :=
  cbn in H;
  repeat match type of H with
         | _ \/ _ => destruct H as [H | H]; [ try discriminate H | ]
         | False => contradiction
         end.



(** C6.  When the task execution step succeeded with a result [v] and the
    extraction step that followed threw, ExecuteTaskWithProfile returns
    [success: true] with [task_result] the value [v], [extracted_data] null
    and no [error]. *)
Theorem extraction_failure_keeps_task_success
    env ctx p c tr a a' task i schema v e :
  run_execute_task_with_profile env ctx (Some p) = (c, tr) ->
  In (agent_act a task (Resolved v)) tr ->
  In (agent_extract a' i schema (Rejected e)) tr ->
  exists r,
    c = Return r /\
    ExecuteTaskWithProfileOutput.success r = true /\
    ExecuteTaskWithProfileOutput.task_result r = Some v /\
    ExecuteTaskWithProfileOutput.extracted_data r = Some JNull /\
    ExecuteTaskWithProfileOutput.error r = None.
Proof.
  revert c tr. run_cases p.
  all: intros c tr H; injection H as <- <-; intros Hact Hext.
  all: elim_In Hext.
  all: elim_In Hact.
  all: injection Hact as _ _ ->.
  all: eexists; split; [reflexivity | cbn; auto].
Qed.

Lemma extraction_failure_keeps_task_success_witness :
  exists r,
    fst (run_execute_task_with_profile env_extract_fails ctx0
           (Some (task_payload (Some "List the headlines")))) = Return r /\
    ExecuteTaskWithProfileOutput.success r = true /\
    ExecuteTaskWithProfileOutput.task_result r = Some (JStr "done") /\
    ExecuteTaskWithProfileOutput.extracted_data r = Some JNull /\
    ExecuteTaskWithProfileOutput.error r = None.
Proof.
  apply (@extraction_failure_keeps_task_success env_extract_fails ctx0
           (task_payload (Some "List the headlines"))
           (fst (run_execute_task_with_profile env_extract_fails ctx0
                   (Some (task_payload (Some "List the headlines")))))
           (snd (run_execute_task_with_profile env_extract_fails ctx0
                   (Some (task_payload (Some "List the headlines")))))
           (AgentHandle 0) (AgentHandle 0)
           (Some "Go to ign.com and say the latest news stories")
           (Some "List the headlines") flexibleSchema (JStr "done")
           (Error "schema mismatch")).
  - apply surjective_pairing.
  - vm_compute. do 4 right. left. reflexivity.
  - vm_compute. do 6 right. left. reflexivity.
Defined.

(** C1.  The claim holds of the session termination but the code misses
    it for the agent.  The agent is stopped after the awaited session
    termination inside one [try]: on the normal success path, with the
    session "S2" obtained and the agent started, a termination call that
    throws is logged by the [catch] of the cleanup and [agent.stop()] is
    never invoked.  The task result is returned all the same. *)
Lemma cleanup_skips_agent_stop_when_termination_throws :
  let run := run_execute_task_with_profile env_delete_fails ctx0
               (Some (task_payload None)) in
  session_obtained (snd run) "S2" /\
  (exists r, fst run = Return r /\ ExecuteTaskWithProfileOutput.success r = true) /\
  (exists options, In (startBrowserAgent options (Resolved (AgentHandle 0))) (snd run)) /\
  count is_deleteByID (snd run) = 1 /\
  In (console_error "Error cleaning up browser session and stopping agent:"
                    (Some (LThrown (Error "504 gateway timeout")))) (snd run) /\
  count is_agent_stop (snd run) = 0.
Proof.
  vm_compute. repeat split.
  - eexists _, browser_S2. repeat split; [left; reflexivity | discriminate].
  - eexists. split; reflexivity.
  - eexists. do 2 right. left. reflexivity.
  - do 6 right. left. reflexivity.
Qed.

Lemma before_cleanup_phase (t : Trace) : t = before_cleanup t ++ cleanup_phase t.
Proof.
  induction t as [| ev t IH]; cbn; [reflexivity |].
  destruct (is_deleteByID ev); cbn; [reflexivity | f_equal; exact IH].
Qed.

Arguments String.eqb : simpl never.

(** X13.  Whenever ExecuteTaskWithProfile obtained a session identifier,
    the session termination is requested exactly once, for that identifier,
    before the handler completes, whatever path was taken and whether the
    handler returns or throws.  Nothing but agent stop and console output
    follows the termination request, and no agent stop precedes it.  The
    agent is stopped at most once, and not at all when no agent had been
    started. *)
Theorem session_termination_runs_exactly_once env ctx payload c tr sid :
  run_execute_task_with_profile env ctx payload = (c, tr) ->
  session_obtained tr sid ->
  count is_deleteByID tr = 1 /\
  count (is_deleteByID_of sid) tr = 1 /\
  count is_agent_stop tr <= 1 /\
  ((forall options a, ~ In (startBrowserAgent options (Resolved a)) tr) ->
   count is_agent_stop tr = 0) /\
  tr = before_cleanup tr ++ cleanup_phase tr /\
  count is_agent_stop (before_cleanup tr) = 0 /\
  exists o rest,
    cleanup_phase tr = browsers_deleteByID (Some sid) o :: rest /\
    forallb (fun ev => is_console ev || is_agent_stop ev) rest = true.
Proof.
  revert c tr. destruct payload as [p |].
  2: { unfold_execute. intros c tr H. injection H as <- <-.
       intros (params & b & Hin & _). elim_In Hin. }
  run_cases p.
  all: intros c tr H; injection H as <- <-.
  all: intros (params & b & Hin & Hsid & Hne).
  all: elim_In Hin.
  all: injection Hin as <- <-.
  all: cbn in Hsid; try discriminate Hsid; injection Hsid as <-; try congruence.
  all: clear.
  all: split; [reflexivity |].
  all: split; [cbn; rewrite String.eqb_refl; reflexivity |].
  all: split; [cbn; lia |].
  all: split;
    [ intros Hnone; try reflexivity; exfalso;
      eapply Hnone; cbn; do 2 right; left; reflexivity |].
  all: split; [apply before_cleanup_phase |].
  all: split; [reflexivity |].
  all: do 2 eexists; split; reflexivity.
Qed.

Lemma session_termination_runs_exactly_once_witness :
  let tr := snd (run_execute_task_with_profile env_act_throws_bare_object ctx0
                   (Some (task_payload None))) in
  count is_deleteByID tr = 1 /\
  count (is_deleteByID_of "S2") tr = 1 /\
  count is_agent_stop tr <= 1.
Proof.
  destruct (@session_termination_runs_exactly_once env_act_throws_bare_object ctx0
              (Some (task_payload None))
              (fst (run_execute_task_with_profile env_act_throws_bare_object ctx0
                      (Some (task_payload None))))
              (snd (run_execute_task_with_profile env_act_throws_bare_object ctx0
                      (Some (task_payload None))))
              "S2")
    as (Hdel & Hsid & Hstop & _).
  - apply surjective_pairing.
  - exists {| BrowserCreateParams.invocation_id := "inv_1";
              BrowserCreateParams.profile_name := Some "profile_1_abc";
              BrowserCreateParams.profile_save_changes := false;
              BrowserCreateParams.stealth := true |}, browser_S2.
    split; [vm_compute; left; reflexivity | split; [reflexivity | discriminate]].
  - split; [exact Hdel | split; [exact Hsid | exact Hstop]].
Defined.

(** The completion of [try { m } finally { f }] is the one of [m] when [f]
    completes normally. *)
Lemma try_finally_completion L R A (m : M L R A) f s :
  always_normal f -> fst (try_finally m f s) = fst (m s).
Proof.
  intros Hf. unfold try_finally.
  destruct (m s) as [c s'].
  destruct (Hf s') as [u Hu]. destruct (f s') as [c' s'']. simpl in Hu. subst c'.
  reflexivity.
Qed.

(** The result of [execute-task-with-profile] is settled before the
    [finally] block runs. *)
Lemma execute_completion env ctx p :
  truthy (ANTHROPIC_API_KEY env) = true ->
  fst (run_execute_task_with_profile env ctx (Some p))
  = fst (try_catch
           (execute_try env ctx
              (ExecuteTaskWithProfilePayload.profile_name p)
              (ExecuteTaskWithProfilePayload.task p)
              (ExecuteTaskWithProfilePayload.url p)
              (ExecuteTaskWithProfilePayload.extract_instructions p))
           execute_catch
           {| locals := declared; trace := [] |}).
Proof.
  intros Hkey.
  unfold run_execute_task_with_profile, invoke, execute_task_with_profile.
  rewrite Hkey. cbn [negb].
  rewrite <- (@try_finally_completion _ _ _ _ (execute_finally env) _
                (execute_finally_always_normal env)).
  destruct (try_finally _ _ _) as [c s]. reflexivity.
Qed.

(** C10.  In a successful result of ExecuteTaskWithProfile, [extracted_data]
    is null when no extraction instructions were supplied (absent or empty),
    and it is null as well when the extraction was attempted and threw; in
    the second case the whole result is the one the same invocation returns
    without extraction instructions, so the caller cannot tell the two
    apart. *)
Theorem failed_extraction_is_indistinguishable_from_none env ctx p r tr :
  run_execute_task_with_profile env ctx (Some p) = (Return r, tr) ->
  ExecuteTaskWithProfileOutput.success r = true ->
  (truthy (ExecuteTaskWithProfilePayload.extract_instructions p) = false ->
   ExecuteTaskWithProfileOutput.extracted_data r = Some JNull) /\
  (forall a i schema e,
     In (agent_extract a i schema (Rejected e)) tr ->
     ExecuteTaskWithProfileOutput.extracted_data r = Some JNull /\
     fst (run_execute_task_with_profile env ctx
            (Some (without_extract_instructions p))) = Return r).
Proof.
  destruct (truthy (ANTHROPIC_API_KEY env)) eqn:Hkey.
  - rewrite (@execute_completion env ctx (without_extract_instructions p) Hkey).
    revert r tr. destruct p as [pn tk url [[| ch ins] |]]; cbn.
    all: unfold_execute; rewrite Hkey; cbn.
    all: repeat ask.
    all: intros r tr H; try discriminate H; injection H as <- <-.
    all: intros Hs; try discriminate Hs.
    all: split; [intros Ht; try discriminate Ht; reflexivity |].
    all: intros ag ins' schema err Hin; elim_In Hin.
    all: split; reflexivity.
  - unfold run_execute_task_with_profile, invoke, execute_task_with_profile.
    rewrite Hkey. cbn. intros H. injection H as <- <-. discriminate.
Qed.

Lemma failed_extraction_is_indistinguishable_from_none_witness :
  fst (run_execute_task_with_profile env_extract_fails ctx0
         (Some (task_payload (Some "List the headlines"))))
  = fst (run_execute_task_with_profile env_extract_fails ctx0
           (Some (task_payload None))).
Proof.
  destruct (@failed_extraction_is_indistinguishable_from_none
              env_extract_fails ctx0 (task_payload (Some "List the headlines"))
              {| ExecuteTaskWithProfileOutput.success := true;
                 ExecuteTaskWithProfileOutput.task_result := Some (JStr "done");
                 ExecuteTaskWithProfileOutput.extracted_data := Some JNull;
                 ExecuteTaskWithProfileOutput.error := None;
                 ExecuteTaskWithProfileOutput.session_id := Some "S2" |}
              (snd (run_execute_task_with_profile env_extract_fails ctx0
                      (Some (task_payload (Some "List the headlines"))))))
    as [_ H].
  - vm_compute. reflexivity.
  - reflexivity.
  - destruct (H (AgentHandle 0) (Some "List the headlines") flexibleSchema
                (Error "schema mismatch")) as [_ E].
    + vm_compute. do 6 right. left. reflexivity.
    + change (task_payload None)
        with (without_extract_instructions (task_payload (Some "List the headlines"))).
      rewrite E. vm_compute. reflexivity.
Defined.

(** C7, as the specification states it, fails: the payload [{}] lacks both
    required fields, and with the credential configured and collaborators
    that accept the calls the result is successful.  The absent values are
    passed on to [kernel.browsers.create] and [agent.act]. *)
Lemma missing_required_fields_can_succeed :
  ExecuteTaskWithProfilePayload.profile_name empty_payload = None /\
  ExecuteTaskWithProfilePayload.task empty_payload = None /\
  run_execute_task_with_profile env_ok ctx0 (Some empty_payload)
  = (Return
       {| ExecuteTaskWithProfileOutput.success := true;
          ExecuteTaskWithProfileOutput.task_result := Some (JStr "done");
          ExecuteTaskWithProfileOutput.extracted_data := Some JNull;
          ExecuteTaskWithProfileOutput.error := None;
          ExecuteTaskWithProfileOutput.session_id := Some "S2" |},
     [ browsers_create
         {| BrowserCreateParams.invocation_id := "inv_1";
            BrowserCreateParams.profile_name := None;
            BrowserCreateParams.profile_save_changes := false;
            BrowserCreateParams.stealth := true |}
         (Resolved browser_S2);
       console_log "Browser created with profile:" (Some (LString None));
       startBrowserAgent
         {| AgentOptions.url := "";
            AgentOptions.narrate := true;
            AgentOptions.llm_provider := "anthropic";
            AgentOptions.llm_model := llm_model_name;
            AgentOptions.llm_apiKey := Some "sk-ant";
            AgentOptions.virtualScreenDimensions := (1024, 768)%Z;
            AgentOptions.browser_cdp := Some "wss://cdp/S2";
            AgentOptions.viewport := (1024, 768)%Z |}
         (Resolved (AgentHandle 0));
       console_log "Browser agent started, executing task:" (Some (LString None));
       agent_act (AgentHandle 0) None (Resolved (JStr "done"));
       browsers_deleteByID (Some "S2") (Resolved tt);
       console_log "Browser session cleaned up" None;
       agent_stop (AgentHandle 0) (Resolved (Resolved tt));
       console_log "Browser agent stopped" None ]).
Proof. repeat split; vm_compute; reflexivity. Qed.

(** C7, amended.  When the payload is present but lacks the profile name or
    the task instruction, the two fields are not checked: the absent value
    is passed on as it is to session creation and to the agent.
    ExecuteTaskWithProfile throws nothing and returns a result whenever every
    error thrown by session creation, agent start or task execution has a
    message (it is an Error, or its string conversion does not throw), and a
    result it returns is unsuccessful exactly when the credential is missing
    or one of these three steps throws. *)
Theorem missing_required_fields_are_not_checked env ctx p c tr :
  ExecuteTaskWithProfilePayload.profile_name p = None \/
  ExecuteTaskWithProfilePayload.task p = None ->
  run_execute_task_with_profile env ctx (Some p) = (c, tr) ->
  (forallb step_has_message tr = true -> exists r, c = Return r) /\
  (forall r,
     c = Return r ->
     (ExecuteTaskWithProfileOutput.success r = false <->
      truthy (ANTHROPIC_API_KEY env) = false \/ existsb failed_step tr = true)) /\
  (forall params o,
     In (browsers_create params o) tr ->
     BrowserCreateParams.profile_name params
     = ExecuteTaskWithProfilePayload.profile_name p) /\
  (forall a task o,
     In (agent_act a task o) tr ->
     task = ExecuteTaskWithProfilePayload.task p).
Proof.
  intros _. revert c tr. run_cases p.
  all: intros c tr H; injection H as <- <-.
  all: split;
    [ intros Hmsg; use_messages Hmsg; try discriminate Hmsg; eexists; reflexivity |].
  all: split;
    [ intros r Hr; try discriminate Hr; injection Hr as <-;
      cbn; intuition congruence |].
  all: split.
  all: try (intros params o Hin; elim_In Hin; injection Hin as <- _; reflexivity).
  all: intros ag t o Hin; elim_In Hin; injection Hin as _ <- _; reflexivity.
Qed.

Lemma missing_required_fields_are_not_checked_witness :
  exists r,
    fst (run_execute_task_with_profile env_ok ctx0 (Some empty_payload)) = Return r.
Proof.
  destruct (@missing_required_fields_are_not_checked env_ok ctx0 empty_payload
              (fst (run_execute_task_with_profile env_ok ctx0 (Some empty_payload)))
              (snd (run_execute_task_with_profile env_ok ctx0 (Some empty_payload))))
    as (Hreturns & _).
  - left. reflexivity.
  - apply surjective_pairing.
  - apply Hreturns. vm_compute. reflexivity.
Defined.

(** ** Further properties of the actions *)

(** *** The generated profile name *)

Lemma substring_length (s : string) (n m : nat) :
  String.length (substring n m s) = Nat.min m (String.length s - n).
Proof.
  revert n m. induction s as [| ch s IH]; intros n m.
  - destruct n, m; reflexivity.
  - destruct n as [| n].
    + destruct m as [| m]; [reflexivity |].
      cbn. rewrite IH. rewrite Nat.sub_0_r. reflexivity.
    + cbn. apply IH.
Qed.

Lemma prefix_append (s t : string) : prefix s (s ++ t) = true.
Proof.
  induction s as [| ch s IH]; cbn.
  - destruct t; reflexivity.
  - destruct (ascii_dec ch ch) as [_ | Hne]; [exact IH | contradiction].
Qed.

(** X1.  The generated profile name is "profile_", the decimal timestamp,
    "_" and the characters of [Math.random().toString(36)] at positions 2
    to 7.  The random part has [min 6 (length - 2)] characters: six when the
    base-36 string has at least eight, fewer for a short one, none when
    there is nothing after "0.". *)
Theorem profileName_random_part_length env :
  exists randomStr,
    profileName env
      = ("profile_" ++ number_toString (Date_now env) ++ "_" ++ randomStr)%string /\
    prefix "profile_" (profileName env) = true /\
    String.length randomStr
      = Nat.min 6 (String.length (Math_random_toString36 env) - 2) /\
    String.length randomStr <= 6 /\
    (forall k, k < String.length randomStr ->
               String.get k randomStr
               = String.get (2 + k) (Math_random_toString36 env)).
Proof.
  exists (substring 2 6 (Math_random_toString36 env)).
  split; [reflexivity |]. split; [apply prefix_append |].
  split; [apply substring_length |].
  split; [rewrite substring_length; lia |].
  intros k Hk. rewrite substring_length in Hk.
  generalize (Math_random_toString36 env) Hk. clear.
  intros s Hk.
  destruct s as [| c0 [| c1 s]]; cbn [String.length] in Hk; try lia.
  assert (Hk6 : k < 6) by lia. clear Hk.
  change (substring 2 6 (String c0 (String c1 s))) with (substring 0 6 s).
  change (String.get (2 + k) (String c0 (String c1 s))) with (String.get k s).
  generalize 6 Hk6. clear. revert k.
  induction s as [| ch s IH]; intros k m Hk.
  - destruct m; [lia |]. reflexivity.
  - destruct m as [| m]; [lia |].
    destruct k as [| k]; cbn; [reflexivity |].
    apply IH. lia.
Qed.

(** *** create-profile-browser *)

(** X2.  When CreateProfileBrowser returns, the profile name in its output
    is the generated one, the only name it asked the service to create, and
    the one its single session is bound to, with [save_changes] and
    [stealth] on; the session identifier and live-view URL of the output are
    those of the session, or "" where the session has none.  The session is
    left open: no termination is requested. *)
Theorem create_profile_browser_returns_the_bound_session env ctx out tr :
  run_create_profile_browser env ctx = (Return out, tr) ->
  CreateProfileBrowserOutput.profile_name out = profileName env /\
  (forall name o, In (profiles_create name o) tr ->
                  name = CreateProfileBrowserOutput.profile_name out) /\
  (exists params b,
     In (browsers_create params (Resolved b)) tr /\
     BrowserCreateParams.profile_name params
       = Some (CreateProfileBrowserOutput.profile_name out) /\
     BrowserCreateParams.profile_save_changes params = true /\
     BrowserCreateParams.stealth params = true /\
     BrowserCreateParams.invocation_id params = KernelContext.invocation_id ctx /\
     CreateProfileBrowserOutput.session_id out
       = or_empty (KernelBrowser.session_id b) /\
     CreateProfileBrowserOutput.browser_live_view_url out
       = or_empty (KernelBrowser.browser_live_view_url b)) /\
  count is_profiles_create tr = 1 /\
  count is_browsers_create tr = 1 /\
  count is_deleteByID tr = 0.
Proof.
  revert out tr. unfold_create.
  destruct (kernel_profiles_create env [] (profileName env)) as [pr | [m | m | v | u]];
    cbn; try discriminate.
  all: destruct (kernel_browsers_create env _ _) as [b | e']; cbn; try discriminate.
  all: intros out tr H; injection H as <- <-; cbn.
  all: split; [reflexivity |].
  all: split; [intros name o Hin; elim_In Hin; injection Hin as <- _; reflexivity |].
  all: split; [| repeat split].
  all: eexists _, b; split; [cbn; do 2 right; left; reflexivity | repeat split].
Qed.

Lemma create_profile_browser_returns_the_bound_session_witness :
  count is_browsers_create (snd (run_create_profile_browser env_conflict ctx0)) = 1 /\
  count is_deleteByID (snd (run_create_profile_browser env_conflict ctx0)) = 0.
Proof.
  destruct (@create_profile_browser_returns_the_bound_session env_conflict ctx0
              (profile_browser_output env_conflict browser_S2)
              (snd (run_create_profile_browser env_conflict ctx0)))
    as (_ & _ & _ & _ & Hb & Hd).
  - vm_compute. reflexivity.
  - split; assumption.
Defined.

(** *** end-session-and-save-profile *)

(** X3.  EndSessionAndSaveProfile reports success exactly when the
    termination call resolved.  It makes at most one call to the
    provisioning service, a [deleteByID] with the identifier of the payload,
    which is then non-empty; it never creates a profile or a session. *)
Theorem end_session_succeeds_iff_termination_resolves env ctx payload :
  exists r,
    fst (run_end_session_and_save_profile env ctx payload) = Return r /\
    (EndSessionAndSaveProfileOutput.success r = true <->
     exists id,
       In (browsers_deleteByID id (Resolved tt))
          (snd (run_end_session_and_save_profile env ctx payload))) /\
    count is_provisioning_call
          (snd (run_end_session_and_save_profile env ctx payload)) <= 1 /\
    (forall ev,
       In ev (snd (run_end_session_and_save_profile env ctx payload)) ->
       is_provisioning_call ev = true ->
       exists p o,
         payload = Some p /\
         truthy (EndSessionAndSaveProfilePayload.session_id p) = true /\
         ev = browsers_deleteByID (EndSessionAndSaveProfilePayload.session_id p) o).
Proof.
  unfold run_end_session_and_save_profile, invoke, end_session_and_save_profile.
  destruct payload as [[sid] |]; cbn.
  2: { eexists. split; [reflexivity |]. split; [| split; [lia |]].
       - split; [discriminate | intros [id []]].
       - intros ev []. }
  destruct (truthy sid) eqn:Ht; cbn.
  2: { eexists. split; [reflexivity |]. split; [| split; [lia |]].
       - split; [discriminate | intros [id []]].
       - intros ev []. }
  unfold try_catch, bind, deleteByID, call, emit, return_; cbn.
  destruct (kernel_browsers_deleteByID env [] sid) as [[] | e]; cbn.
  all: eexists; split; [reflexivity |]; split; [| split; [cbn; lia |]].
  - split; [intros _; exists sid; left; reflexivity | reflexivity].
  - intros ev Hin Hp; elim_In Hin; subst ev; try discriminate Hp.
    eexists _, _. repeat split. exact Ht.
  - split; [discriminate | intros [id Hin]; elim_In Hin].
  - intros ev Hin Hp; elim_In Hin; subst ev; try discriminate Hp.
    eexists _, _. repeat split. exact Ht.
Qed.

(** *** execute-task-with-profile: the result *)

(** X4.  ExecuteTaskWithProfile returns [success: true] exactly when
    [agent.act] resolved, and then it always returns.  A successful result
    carries the value [agent.act] resolved with, an [extracted_data] field
    and no [error]; an unsuccessful one carries an [error] message and
    neither [task_result] nor [extracted_data].  The handler throws only
    when the error of a failed step has no string conversion, and what it
    throws is what that conversion threw. *)
Theorem execute_succeeds_iff_task_resolves env ctx payload :
  let run := run_execute_task_with_profile env ctx payload in
  match fst run with
  | Return r =>
      (ExecuteTaskWithProfileOutput.success r = true <->
       exists a task v, In (agent_act a task (Resolved v)) (snd run)) /\
      (ExecuteTaskWithProfileOutput.success r = true ->
       ExecuteTaskWithProfileOutput.error r = None /\
       ExecuteTaskWithProfileOutput.extracted_data r <> None /\
       exists a task v,
         In (agent_act a task (Resolved v)) (snd run) /\
         ExecuteTaskWithProfileOutput.task_result r = Some v) /\
      (ExecuteTaskWithProfileOutput.success r = false ->
       ExecuteTaskWithProfileOutput.error r <> None /\
       ExecuteTaskWithProfileOutput.task_result r = None /\
       ExecuteTaskWithProfileOutput.extracted_data r = None)
  | Throw thrown =>
      exists ev e,
        In ev (snd run) /\ failed_step_error ev = Some e /\
        error_message e = Rejected thrown
  | Normal _ => False
  end /\
  ((exists a task v, In (agent_act a task (Resolved v)) (snd run)) ->
   exists r,
     fst run = Return r /\ ExecuteTaskWithProfileOutput.success r = true).
Proof.
  cbn zeta.
  destruct (run_execute_task_with_profile env ctx payload) as [c tr] eqn:H.
  cbn [fst snd]. revert c tr H.
  destruct payload as [p |].
  2: { unfold_execute. intros c tr H. injection H as <- <-. cbn.
       split; [| intros (a & t & v & [])].
       split; [split; [discriminate | intros (a & t & v & [])] |].
       split; [discriminate | intros _; repeat split; discriminate]. }
  run_cases p.
  all: intros c tr H; injection H as <- <-; cbn.
  all: split;
    [| intros (ag & t & v & Hin); elim_In Hin; eexists; split; reflexivity ].
  all: first
    [ solve [eexists _, _; split; [left; reflexivity | split; [reflexivity | assumption]]]
    | solve [eexists _, _; split;
             [do 2 right; left; reflexivity | split; [reflexivity | assumption]]]
    | solve [eexists _, _; split;
             [do 4 right; left; reflexivity | split; [reflexivity | assumption]]]
    | idtac ].
  all: split;
    [ split;
      [ intros Hs; try discriminate Hs;
        eexists _, _, _; do 4 right; left; reflexivity
      | intros (ag & t & v & Hin); elim_In Hin; reflexivity ] |].
  all: split.
  all: try (intros Hs; discriminate Hs).
  all: try (intros _; repeat split; discriminate).
  all: intros _; split; [reflexivity |]; split; [discriminate |].
  all: eexists _, _, _; split; [do 4 right; left; reflexivity | reflexivity].
Qed.

(** X5.  When session creation, agent start or task execution throws [e],
    ExecuteTaskWithProfile logs it with [console.error] and builds the error
    message of the result: the [message] of [e] if it is an Error, its
    string conversion otherwise.  With that message it returns
    [success: false] and the identifier of the session if one had been
    created; if the string conversion itself throws, the handler throws what
    the conversion threw.  When it is session creation that failed, nothing
    else is called: no agent is started and no termination is requested. *)
Theorem execute_reports_the_failed_step env ctx payload c tr ev e :
  run_execute_task_with_profile env ctx payload = (c, tr) ->
  In ev tr ->
  failed_step_error ev = Some e ->
  match error_message e with
  | Resolved message => c = Return (failure message (created_session_id tr))
  | Rejected thrown => c = Throw thrown
  end /\
  In (console_error "Error executing task:" (Some (LThrown e))) tr /\
  (is_browsers_create ev = true ->
   tr = [ev; console_error "Error executing task:" (Some (LThrown e))]).
Proof.
  remember (error_message e) as converted eqn:He.
  revert c tr. destruct payload as [p |].
  2: { unfold_execute. intros c tr H. injection H as <- <-. intros []. }
  run_cases p.
  all: intros c tr H; injection H as <- <-; intros Hin Hfail.
  all: elim_In Hin; subst ev; try discriminate Hfail.
  all: injection Hfail as <-.
  all: split;
    [ match goal with Heq : error_message _ = _ |- _ => rewrite Heq in He end;
      subst converted; reflexivity |].
  all: split; [cbn; intuition auto |].
  all: intros Hk; try discriminate Hk; reflexivity.
Qed.

Lemma execute_reports_the_failed_step_witness :
  fst (run_execute_task_with_profile env_act_fails ctx0 (Some (task_payload None)))
  = Return (failure "navigation timeout" (Some "S2")) /\
  fst (run_execute_task_with_profile env_act_throws_bare_object ctx0
         (Some (task_payload None)))
  = Throw (Error "Cannot convert object to primitive value").
Proof.
  split.
  - destruct (@execute_reports_the_failed_step env_act_fails ctx0
                (Some (task_payload None))
                (fst (run_execute_task_with_profile env_act_fails ctx0
                        (Some (task_payload None))))
                (snd (run_execute_task_with_profile env_act_fails ctx0
                        (Some (task_payload None))))
                (agent_act (AgentHandle 0)
                   (Some "Go to ign.com and say the latest news stories")
                   (Rejected (Error "navigation timeout")))
                (Error "navigation timeout"))
      as (Hc & _).
    + apply surjective_pairing.
    + vm_compute. do 4 right. left. reflexivity.
    + reflexivity.
    + etransitivity; [exact Hc | vm_compute; reflexivity].
  - destruct (@execute_reports_the_failed_step env_act_throws_bare_object ctx0
                (Some (task_payload None))
                (fst (run_execute_task_with_profile env_act_throws_bare_object ctx0
                        (Some (task_payload None))))
                (snd (run_execute_task_with_profile env_act_throws_bare_object ctx0
                        (Some (task_payload None))))
                (agent_act (AgentHandle 0)
                   (Some "Go to ign.com and say the latest news stories")
                   (Rejected (Unconvertible
                                (Error "Cannot convert object to primitive value"))))
                (Unconvertible (Error "Cannot convert object to primitive value")))
      as (Hc & _).
    + apply surjective_pairing.
    + vm_compute. do 4 right. left. reflexivity.
    + reflexivity.
    + exact Hc.
Defined.

(** *** execute-task-with-profile: the session *)

(** X6.  ExecuteTaskWithProfile never creates a profile and requests at
    most one session: for the profile name of the payload as it came, with
    [save_changes] off and [stealth] on, under the invocation identifier of
    the context, and only once the credential check has passed. *)
Theorem execute_session_never_saves_changes env ctx payload :
  count is_profiles_create (snd (run_execute_task_with_profile env ctx payload)) = 0 /\
  count is_browsers_create (snd (run_execute_task_with_profile env ctx payload)) <= 1 /\
  (forall params o,
     In (browsers_create params o)
        (snd (run_execute_task_with_profile env ctx payload)) ->
     truthy (ANTHROPIC_API_KEY env) = true /\
     BrowserCreateParams.profile_save_changes params = false /\
     BrowserCreateParams.stealth params = true /\
     BrowserCreateParams.invocation_id params = KernelContext.invocation_id ctx /\
     exists p,
       payload = Some p /\
       BrowserCreateParams.profile_name params
       = ExecuteTaskWithProfilePayload.profile_name p).
Proof.
  destruct (run_execute_task_with_profile env ctx payload) as [c tr] eqn:H.
  cbn [fst snd]. revert c tr H.
  destruct payload as [p |].
  2: { unfold_execute. intros c tr H. injection H as <- <-.
       split; [reflexivity |]. split; [cbn; lia |]. intros params o []. }
  run_cases p.
  all: intros c tr H; injection H as <- <-.
  all: split; [reflexivity |]; split; [cbn; lia |].
  all: intros params o Hin; elim_In Hin; injection Hin as <- _.
  all: repeat split; eexists; split; reflexivity.
Qed.

(** X7.  The cleanup is keyed on the session identifier: when the session
    object that [kernel.browsers.create] resolved with has no identifier
    (missing or empty), no termination is requested and the agent is never
    stopped, whether or not it had been started. *)
Theorem execute_without_session_id_skips_cleanup env ctx payload c tr params b :
  run_execute_task_with_profile env ctx payload = (c, tr) ->
  In (browsers_create params (Resolved b)) tr ->
  truthy (KernelBrowser.session_id b) = false ->
  count is_deleteByID tr = 0 /\ count is_agent_stop tr = 0.
Proof.
  revert c tr. destruct payload as [p |].
  2: { unfold_execute. intros c tr H. injection H as <- <-. intros []. }
  run_cases p.
  all: intros c tr H; injection H as <- <-; intros Hin Hid.
  all: elim_In Hin; injection Hin as _ <-.
  all: try discriminate Hid.
  all: split; reflexivity.
Qed.

Lemma execute_without_session_id_skips_cleanup_witness :
  let tr := snd (run_execute_task_with_profile env_no_session_id ctx0
                   (Some (task_payload None))) in
  (exists options, In (startBrowserAgent options (Resolved (AgentHandle 0))) tr) /\
  count is_deleteByID tr = 0 /\ count is_agent_stop tr = 0.
Proof.
  split.
  - vm_compute. eexists. do 2 right. left. reflexivity.
  - apply (@execute_without_session_id_skips_cleanup env_no_session_id ctx0
             (Some (task_payload None))
             (fst (run_execute_task_with_profile env_no_session_id ctx0
                     (Some (task_payload None))))
             (snd (run_execute_task_with_profile env_no_session_id ctx0
                     (Some (task_payload None))))
             {| BrowserCreateParams.invocation_id := "inv_1";
                BrowserCreateParams.profile_name := Some "profile_1_abc";
                BrowserCreateParams.profile_save_changes := false;
                BrowserCreateParams.stealth := true |}
             browser_without_id).
    + apply surjective_pairing.
    + vm_compute. left. reflexivity.
    + reflexivity.
Defined.

(** X8.  What the cleanup does has no effect on the result: two
    environments that differ only in how [deleteByID] and [agent.stop]
    answer give the same result, for every payload. *)
Theorem cleanup_outcome_does_not_change_the_result env env' ctx payload :
  same_until_cleanup env env' ->
  fst (run_execute_task_with_profile env ctx payload)
  = fst (run_execute_task_with_profile env' ctx payload).
Proof.
  intros (Hkey & Hcreate & Hstart & Hact & Hextract).
  destruct payload as [p |]; [| reflexivity].
  destruct (truthy (ANTHROPIC_API_KEY env)) eqn:Ht.
  - rewrite (@execute_completion env ctx p Ht).
    rewrite Hkey in Ht. rewrite (@execute_completion env' ctx p Ht).
    destruct p as [pn tk url [[| ch ins] |]]; cbn.
    all: unfold try_catch, execute_try, execute_catch, browsersCreate;
      unfold try_catch, bind, call, emit, modify, get, return_, ret; cbn.
    all: repeat (rewrite <- ?Hkey, <- ?Hcreate, <- ?Hstart, <- ?Hact, <- ?Hextract;
                 first [reflexivity | ask]).
  - unfold run_execute_task_with_profile, invoke, execute_task_with_profile.
    rewrite <- Hkey, Ht. reflexivity.
Qed.

Lemma cleanup_outcome_does_not_change_the_result_witness :
  fst (run_execute_task_with_profile env_ok ctx0 (Some (task_payload None)))
  = fst (run_execute_task_with_profile env_delete_fails ctx0 (Some (task_payload None))).
Proof.
  apply cleanup_outcome_does_not_change_the_result.
  repeat split.
Defined.

(** *** execute-task-with-profile: the agent *)

(** X9.  [agent.extract] is called exactly when the payload carries
    non-empty extraction instructions and [agent.act] resolved; it is called
    with the instructions of the payload and the open schema
    [{data: record(any)}], and what it resolves with is the
    [extracted_data] of the result. *)
Theorem extraction_runs_iff_instructed_and_task_resolved env ctx p :
  let run := run_execute_task_with_profile env ctx (Some p) in
  ((exists a i s o, In (agent_extract a i s o) (snd run)) <->
   truthy (ExecuteTaskWithProfilePayload.extract_instructions p) = true /\
   exists a task v, In (agent_act a task (Resolved v)) (snd run)) /\
  (forall a i s o,
     In (agent_extract a i s o) (snd run) ->
     i = ExecuteTaskWithProfilePayload.extract_instructions p /\
     s = z_object [("data", z_record z_any)]) /\
  (forall a i s data,
     In (agent_extract a i s (Resolved data)) (snd run) ->
     exists r, fst run = Return r /\
               ExecuteTaskWithProfileOutput.extracted_data r = Some data).
Proof.
  cbn zeta.
  destruct (run_execute_task_with_profile env ctx (Some p)) as [c tr] eqn:H.
  cbn [fst snd]. revert c tr H.
  run_cases p.
  all: intros c tr H; injection H as <- <-.
  all: split;
    [ split;
      [ intros (ag & i & sch & o & Hin); elim_In Hin;
        (split; [reflexivity | eexists _, _, _; do 4 right; left; reflexivity])
      | intros (Ht & ag & t & v & Hin); try discriminate Ht; elim_In Hin;
        eexists _, _, _, _; do 6 right; left; reflexivity ] |].
  all: split;
    [ intros ag i sch o Hin; elim_In Hin; injection Hin as _ <- <- _;
      split; reflexivity |].
  all: intros ag i sch data Hin; elim_In Hin; injection Hin as _ _ _ <-.
  all: eexists; split; reflexivity.
Qed.

(** X10.  Every call on the agent goes to the handle that
    [startBrowserAgent] resolved with in this invocation, and the agent is
    started on the control channel of the session created in this
    invocation, with the configured (non-empty) credential, the fixed model
    and the 1024x768 viewport, at the URL of the payload or "" when there is
    none.  The task given to [agent.act] is the one of the payload. *)
Theorem agent_is_wired_to_the_created_session env ctx p :
  let tr := snd (run_execute_task_with_profile env ctx (Some p)) in
  (forall options o,
     In (startBrowserAgent options o) tr ->
     (exists params b,
        In (browsers_create params (Resolved b)) tr /\
        AgentOptions.browser_cdp options = KernelBrowser.cdp_ws_url b) /\
     AgentOptions.llm_apiKey options = ANTHROPIC_API_KEY env /\
     truthy (AgentOptions.llm_apiKey options) = true /\
     AgentOptions.llm_provider options = "anthropic" /\
     AgentOptions.llm_model options = "claude-sonnet-4-20250514" /\
     AgentOptions.virtualScreenDimensions options = (1024, 768)%Z /\
     AgentOptions.viewport options = (1024, 768)%Z /\
     AgentOptions.url options = or_empty (ExecuteTaskWithProfilePayload.url p)) /\
  (forall a task o,
     In (agent_act a task o) tr ->
     task = ExecuteTaskWithProfilePayload.task p /\
     exists options, In (startBrowserAgent options (Resolved a)) tr) /\
  (forall a i s o,
     In (agent_extract a i s o) tr ->
     exists options, In (startBrowserAgent options (Resolved a)) tr) /\
  (forall a o,
     In (agent_stop a o) tr ->
     exists options, In (startBrowserAgent options (Resolved a)) tr).
Proof.
  cbn zeta.
  destruct (run_execute_task_with_profile env ctx (Some p)) as [c tr] eqn:H.
  cbn [fst snd]. revert c tr H.
  run_cases p.
  all: intros c tr H; injection H as <- <-.
  all: split;
    [ intros options o Hin; elim_In Hin; injection Hin as <- _;
      (split; [eexists _, _; split; [left; reflexivity | reflexivity] |]);
      repeat split; assumption |].
  all: split;
    [ intros ag t o Hin; elim_In Hin; injection Hin as <- <- _;
      (split; [reflexivity | eexists; do 2 right; left; reflexivity]) |].
  all: split;
    [ intros ag i sch o Hin; elim_In Hin; injection Hin as <- _ _ _;
      eexists; do 2 right; left; reflexivity |].
  all: intros ag o Hin; elim_In Hin; injection Hin as <- _.
  all: eexists; do 2 right; left; reflexivity.
Qed.

(** X11.  The external calls of one invocation of ExecuteTaskWithProfile
    are, in the order they are made, a subsequence of: session creation,
    agent start, task execution, extraction, session termination, agent
    stop.  Each is made at most once and none out of this order; no profile
    is created. *)
Theorem execute_calls_follow_the_source_order env ctx payload :
  subsequence
    (external_calls (snd (run_execute_task_with_profile env ctx payload)))
    execute_call_order = true.
Proof.
  destruct (run_execute_task_with_profile env ctx payload) as [c tr] eqn:H.
  cbn [fst snd]. revert c tr H.
  destruct payload as [p |].
  2: { unfold_execute. intros c tr H. injection H as <- <-. reflexivity. }
  run_cases p.
  all: intros c tr H; injection H as <- <-; reflexivity.
Qed.

(** *** From create-profile-browser to end-session-and-save-profile *)

Lemma truthy_Some (s : string) : truthy (Some s) = negb (String.eqb s "").
Proof. destruct s; reflexivity. Qed.

(** X12.  The session identifier that CreateProfileBrowser returns is what
    EndSessionAndSaveProfile needs.  If it is non-empty, it is the
    identifier of the session the service created, and ending it makes
    exactly one [deleteByID] call for that identifier, the success flag
    telling whether the call resolved.  If it is "" (the service gave no
    identifier), ending it returns [{success: false}] without any call. *)
Theorem returned_session_id_ends_the_created_session env ctx out tr env' ctx' :
  run_create_profile_browser env ctx = (Return out, tr) ->
  let sid := CreateProfileBrowserOutput.session_id out in
  let ended := run_end_session_and_save_profile env' ctx' (Some (session_payload sid)) in
  (sid <> "" ->
   (exists params b,
      In (browsers_create params (Resolved b)) tr /\
      KernelBrowser.session_id b = Some sid) /\
   exists o,
     filter is_provisioning_call (snd ended) = [browsers_deleteByID (Some sid) o] /\
     fst ended
     = Return {| EndSessionAndSaveProfileOutput.success :=
                   match o with Resolved _ => true | Rejected _ => false end |}) /\
  (sid = "" ->
   ended = (Return {| EndSessionAndSaveProfileOutput.success := false |}, [])).
Proof.
  intros Hrun sid ended. split.
  - intros Hne. split.
    + revert out tr Hrun sid ended Hne. unfold_create.
      destruct (kernel_profiles_create env [] (profileName env)) as [pr | [m | m | v | u]];
        cbn; try discriminate.
      all: destruct (kernel_browsers_create env _ _) as [[bsid cdp live] | e'];
        cbn; try discriminate.
      all: intros out tr H; injection H as <- <-; cbn; intros Hne.
      all: eexists _, _; split; [do 2 right; left; reflexivity |]; cbn.
      all: unfold or_empty in *; destruct bsid as [[| ch s] |]; cbn in *;
        congruence.
    + subst ended.
      unfold run_end_session_and_save_profile, invoke,
        end_session_and_save_profile, session_payload.
      cbn [EndSessionAndSaveProfilePayload.session_id].
      rewrite truthy_Some.
      destruct (String.eqb_spec sid ""); [contradiction |]. cbn.
      unfold try_catch, bind, deleteByID, call, emit, return_; cbn.
      destruct (kernel_browsers_deleteByID env' [] (Some sid)) as [[] | e];
        eexists; split; reflexivity.
  - intros Hempty. subst ended. rewrite Hempty. reflexivity.
Qed.

Lemma returned_session_id_ends_the_created_session_witness :
  exists o : Outcome unit,
    fst (run_end_session_and_save_profile env_ok ctx0 (Some (session_payload "S2")))
    = Return {| EndSessionAndSaveProfileOutput.success :=
                  match o with Resolved _ => true | Rejected _ => false end |}.
Proof.
  destruct (@returned_session_id_ends_the_created_session env_ok ctx0
              (profile_browser_output env_ok browser_S2)
              (snd (run_create_profile_browser env_ok ctx0))
              env_ok ctx0)
    as [H _].
  - vm_compute. reflexivity.
  - destruct H as (_ & o & _ & Hc).
    + discriminate.
    + exists o. exact Hc.
Defined.
